(** * jaclog: the stateful line formatter and the session announcer

    A shallow embedding of [src/jaclog/formatter.py] and of the session
    part of [src/jaclog/jaclog.py], with the properties of the rendering
    engine stated and proved over it.

    Python strings are sequences of Unicode code points: a character is a
    code point ([N]) and a string a list of them, so that [len], slicing,
    [str.strip] and [str.splitlines] count and classify characters the way
    the interpreter does.  Dictionaries of the settings module are finite
    maps; the attributes of a [Formatter] instance are the fields of a
    record threaded through a state-and-exception monad, in which a raised
    exception keeps the attribute writes that happened before it. *)

From Stdlib Require Import ZArith QArith Qround String Ascii HexString DecimalString.
From stdpp Require Import base option list gmap.

Set Default Proof Using "Type".
Local Open Scope Z_scope.
Local Open Scope list_scope.

(** ** Python strings *)

Abbreviation char := N (only parsing).
Abbreviation str := (list N) (only parsing).

(** An ASCII literal of the source, as a Python string. *)
Definition lit (s : string) : str :=
  (λ a : ascii, N_of_ascii a) <$> list_ascii_of_string s.

Definition SPACE : char := 32%N.      (* '\x20' *)
Definition LF : char := 10%N.         (* '\n' *)
Definition CR : char := 13%N.         (* '\r' *)
Definition ESC : char := 27%N.        (* '\x1b' *)
Definition MIDDLE_DOT : char := 183%N.  (* '·', U+00B7 *)
Definition BOX_LINE : char := 9472%N.   (* '─', U+2500 *)

(** [' ' * n] *)
Definition spaces (n : nat) : str := replicate n SPACE.

(** [str.isspace] on one character: the code points CPython classifies as
    white space. *)
Definition is_space (c : char) : bool :=
  ((9 <=? c) && (c <=? 13) || (28 <=? c) && (c <=? 32)
   || (c =? 133) || (c =? 160) || (c =? 5760)
   || (8192 <=? c) && (c <=? 8202)
   || (c =? 8232) || (c =? 8233) || (c =? 8239) || (c =? 8287)
   || (c =? 12288))%N.

(** The line boundaries of [str.splitlines], [CR LF] apart. *)
Definition is_linebreak (c : char) : bool :=
  ((10 <=? c) && (c <=? 13) || (28 <=? c) && (c <=? 30)
   || (c =? 133) || (c =? 8232) || (c =? 8233))%N.

Fixpoint lstrip (s : str) : str :=
  match s with
  | c :: s' => if is_space c then lstrip s' else s
  | [] => []
  end.

Definition rstrip (s : str) : str := reverse (lstrip (reverse s)).

(** [s.strip()] *)
Definition strip (s : str) : str := rstrip (lstrip s).

(** [s.startswith(p)] *)
Fixpoint startswith (p s : str) : bool :=
  match p, s with
  | [], _ => true
  | a :: p', b :: s' => (a =? b)%N && startswith p' s'
  | _ :: _, [] => false
  end.

(** [p in s] for strings: [p] occurs in [s] as a run of consecutive
    characters. *)
Fixpoint contains (s p : str) : bool :=
  startswith p s ||
  match s with
  | [] => false
  | _ :: s' => contains s' p
  end.

(** [s.splitlines(True)]: the lines of [s], each with its line ending. *)
Fixpoint splitlines (s : str) : list str :=
  match s with
  | [] => []
  | c :: s' =>
      if is_linebreak c then
        match s' with
        | c' :: s'' =>
            if (c =? CR)%N && (c' =? LF)%N
            then [c; c'] :: splitlines s''
            else [c] :: splitlines s'
        | [] => [[c]]
        end
      else
        match splitlines s' with
        | [] => [[c]]
        | l :: ls => (c :: l) :: ls
        end
  end.

(** [line.isspace()] for a non-empty line, that is [not line.strip()]. *)
Definition blank (line : str) : bool := forallb is_space line.

(** [textwrap.indent(text, prefix)] with the default predicate: the prefix
    goes before every line that does not consist solely of white space. *)
Definition indent (text prefix : str) : str :=
  concat ((λ line, if blank line then line else prefix ++ line)
            <$> splitlines text).

(** [sep.join(parts)] *)
Fixpoint join (sep : str) (parts : list str) : str :=
  match parts with
  | [] => []
  | [p] => p
  | p :: ps => p ++ sep ++ join sep ps
  end.

(** [f'{s:{width}}']: a string formatted to a minimum width is padded with
    spaces on the right. *)
Definition ljust (s : str) (width : nat) : str :=
  s ++ spaces (width - length s).

(** [posixpath.basename(s)]: the characters of [s] after its last ['/']. *)
Fixpoint basename (s : str) : str :=
  match s with
  | [] => []
  | c :: s' =>
      if existsb (N.eqb 47) s' then basename s'
      else if (c =? 47)%N then s' else s
  end.

(** ['%d' % n] *)
Definition str_of_Z (n : Z) : str :=
  lit (NilZero.string_of_int (Z.to_int n)).

(** ['%0wd' % n] for [0 <= n] *)
Definition str_of_Z_pad (w : nat) (n : Z) : str :=
  let d := str_of_Z n in replicate (w - length d) 48%N ++ d.

(** ** Exceptions and Python values *)

Inductive exn :=
  | KeyError (key : str)
  | AttributeError (name : str)
  | OverflowError
  | OSError (path : str)
  | RuntimeError (msg : str).

Inductive result (A : Type) :=
  | Ok (a : A)
  | Raise (e : exn).
Arguments Ok {A} a.
Arguments Raise {A} e.

(** [d[key]] on a dictionary. *)
Definition getitem {V} (d : gmap str V) (key : str) : result V :=
  match d !! key with
  | Some v => Ok v
  | None => Raise (KeyError key)
  end.

(** The values an expression of the formatter can evaluate to. *)
Inductive pyobj :=
  | PyNone
  | PyStr (s : str)
  | PyBoundMethod (qualname : str) (self_id : N).

(** [v is not None] *)
Definition is_not_None (v : pyobj) : bool :=
  match v with
  | PyNone => false
  | _ => true
  end.

(** [repr] of an instance of a class without [__repr__]. *)
Definition object_repr (cls : str) (id : N) : str :=
  lit "<" ++ cls ++ lit " object at " ++ lit (HexString.of_N id) ++ lit ">".

(** [f'{v}'], that is [format(v, '')], which is [str(v)] for these. *)
Definition format_value (v : pyobj) : str :=
  match v with
  | PyNone => lit "None"
  | PyStr s => s
  | PyBoundMethod qualname id =>
      lit "<bound method " ++ qualname ++ lit " of "
        ++ object_repr (lit "jaclog.formatter.Formatter") id ++ lit ">"
  end.

(** ** [datetime.timedelta] *)

Record timedelta := mkTimedelta {
  td_days : Z;
  td_seconds : Z;
  td_microseconds : Z
}.

(** Normalisation of a duration given in microseconds; CPython refuses
    magnitudes beyond 999999999 days. *)
Definition timedelta_of_us (us : Z) : result timedelta :=
  let d := us / 86400000000 in
  let r := us mod 86400000000 in
  if Z.abs d >? 999999999 then Raise OverflowError
  else Ok (mkTimedelta d (r / 1000000) (r mod 1000000)).

(** [timedelta(milliseconds=ms)] for an integer [ms]. *)
Definition timedelta_ms (ms : Z) : result timedelta :=
  timedelta_of_us (ms * 1000).

(** Rounding to the nearest integer, ties to the even one. *)
Definition round_half_even (q : Q) : Z :=
  let f := Qfloor q in
  match Qcompare (q - inject_Z f) (1 # 2) with
  | Lt => f
  | Gt => f + 1
  | Eq => if Z.even f then f else f + 1
  end.

(** [timedelta(seconds=s)] for a fractional [s]. *)
Definition timedelta_s (s : Q) : result timedelta :=
  timedelta_of_us (round_half_even (s * inject_Z 1000000)).

(** [str(td)] *)
Definition timedelta_str (td : timedelta) : str :=
  let mm := td_seconds td / 60 in
  let ss := td_seconds td mod 60 in
  let hh := mm / 60 in
  let mm := mm mod 60 in
  let s := str_of_Z hh ++ lit ":" ++ str_of_Z_pad 2 mm
             ++ lit ":" ++ str_of_Z_pad 2 ss in
  let s := if td_days td =? 0 then s
           else str_of_Z (td_days td) ++ lit " day"
                  ++ (if Z.abs (td_days td) =? 1 then [] else lit "s")
                  ++ lit ", " ++ s in
  if td_microseconds td =? 0 then s
  else s ++ lit "." ++ str_of_Z_pad 6 (td_microseconds td).

(** ** What the two modules import and do not define

    [screen.sgr] wraps a text in the escape sequences of a colour; the
    settings module holds the symbol and colour of each severity, the width
    of the symbol column, the left margin and the padding of the session
    separator.  [str_lower] is [str.lower] of the interpreter. *)
Class Externals := {
  color : Type;
  sgr : str → color → str;
  colors : gmap str color;
  symbols : gmap str str;
  symbolWidth : nat;
  margin : nat;
  sessionTimeLinePadding : nat;
  str_lower : str → str
}.

(** ** The formatter *)

(** The attributes of a [logging.LogRecord] that the formatter reads.
    [message] is the text [logging.Formatter.format] returns for the
    record. *)
Record LogRecord := mkLogRecord {
  levelname : str;
  name : str;
  filename : str;
  funcName : str;
  message : str;
  relativeCreated : Z
}.

Record _Last := mk_Last {
  head : str;
  last_relativeCreated : Z   (* relativeCreated, in milliseconds *)
}.

(** The attributes of a [Formatter] instance; those that [__init__] does
    not set are absent until [format] assigns them.  [_id] is the identity
    of the object, which its [repr] shows. *)
Record Formatter := mkFormatter {
  _id : N;
  _compact : bool;
  _interval : Z;
  _last : _Last;
  _record : option LogRecord;
  _head : option str;
  _message : option str;
  _inOneLine : option bool
}.

(** [Formatter(compact, interval)], allocated at [id]. *)
Definition __init__ (id : N) (compact : bool) (interval : Z) : Formatter :=
  {| _id := id; _compact := compact; _interval := interval;
     _last := mk_Last [] 0;
     _record := None; _head := None; _message := None; _inOneLine := None |}.

(** Computations over a mutable state [S] that may raise: the state
    reached when an exception is raised is kept, as the writes that
    preceded a Python [raise] are. *)
Definition state_exn (S A : Type) : Type := S → result A * S.

Definition ret {S A} (a : A) : state_exn S A := λ s, (Ok a, s).

Definition bind {S A B} (m : state_exn S A) (k : A → state_exn S B)
    : state_exn S B :=
  λ s, match m s with
       | (Ok a, s') => k a s'
       | (Raise e, s') => (Raise e, s')
       end.

Definition lift {S A} (r : result A) : state_exn S A := λ s, (r, s).

Definition raise {S A} (e : exn) : state_exn S A := λ s, (Raise e, s).

(** Reading a component of the state. *)
Definition get {S A} (field : S → A) : state_exn S A :=
  λ s, (Ok (field s), s).

Declare Scope py_scope.
Delimit Scope py_scope with py.
Notation "x <- c ;; k" := (bind c (λ x, k))
  (at level 100, c at next level, right associativity) : py_scope.
Notation "c ;; k" := (bind c (λ _, k))
  (at level 100, right associativity) : py_scope.
Local Open Scope py_scope.

(** Computations on [self]. *)
Abbreviation M := (state_exn Formatter).

(** Reading an attribute that may not have been assigned yet. *)
Definition getattr {A} (field : Formatter → option A) (name : string) : M A :=
  λ self, match field self with
          | Some a => (Ok a, self)
          | None => (Raise (AttributeError (lit name)), self)
          end.

Definition set_record (r : LogRecord) : M unit :=
  λ self, (Ok tt, {| _id := _id self; _compact := _compact self;
                     _interval := _interval self; _last := _last self;
                     _record := Some r; _head := _head self;
                     _message := _message self; _inOneLine := _inOneLine self |}).

Definition set_head (h : str) : M unit :=
  λ self, (Ok tt, {| _id := _id self; _compact := _compact self;
                     _interval := _interval self; _last := _last self;
                     _record := _record self; _head := Some h;
                     _message := _message self; _inOneLine := _inOneLine self |}).

Definition set_message (m : str) : M unit :=
  λ self, (Ok tt, {| _id := _id self; _compact := _compact self;
                     _interval := _interval self; _last := _last self;
                     _record := _record self; _head := _head self;
                     _message := Some m; _inOneLine := _inOneLine self |}).

Definition set_inOneLine (b : bool) : M unit :=
  λ self, (Ok tt, {| _id := _id self; _compact := _compact self;
                     _interval := _interval self; _last := _last self;
                     _record := _record self; _head := _head self;
                     _message := _message self; _inOneLine := Some b |}).

Definition set_last (l : _Last) : M unit :=
  λ self, (Ok tt, {| _id := _id self; _compact := _compact self;
                     _interval := _interval self; _last := l;
                     _record := _record self; _head := _head self;
                     _message := _message self; _inOneLine := _inOneLine self |}).

Section formatter.
Context `{E : Externals}.

(** The text that the body of [_timeLine] leaves in its local variable
    [timeLine]: the styled marker when the gap exceeds the interval,
    [None] otherwise. *)
Definition _timeLine_local : M (option str) :=
  record <- getattr _record "_record" ;;
  last <- get _last ;;
  let milliseconds := relativeCreated record - last_relativeCreated last in
  interval <- get _interval ;;
  if milliseconds >? interval then
    td <- lift (timedelta_ms milliseconds) ;;
    let timeLine := [SPACE; SPACE; BOX_LINE; BOX_LINE; BOX_LINE; SPACE]
                      ++ timedelta_str td ++ lit " elapsed" in
    c <- lift (getitem colors (lit "time")) ;;
    ret (Some (sgr timeLine c))
  else ret None.

(** The method [_timeLine]: its body ends without a [return], so a call
    evaluates to [None] whatever the local variable holds. *)
Definition _timeLine : M pyobj :=
  _timeLine_local ;; ret PyNone.

(** The expression [self._timeLine], without a call: the attribute lookup
    finds the function in the class and binds it to [self]. *)
Definition self_timeLine : M pyobj :=
  λ self, (Ok (PyBoundMethod (lit "Formatter._timeLine") (_id self)), self).

Definition _formatRegularly : M str :=
  headLine <- getattr _head "_head" ;;
  m <- getattr _message "_message" ;;
  let message := indent m (spaces symbolWidth) in
  h <- getattr _head "_head" ;;
  last <- get _last ;;
  if bool_decide (h = head last) then
    t <- self_timeLine ;;
    if is_not_None t then
      t <- self_timeLine ;;
      ret ([LF] ++ format_value t ++ [LF; LF] ++ message)
    else
      ret ([LF] ++ message)
  else
    t <- self_timeLine ;;
    if is_not_None t then
      t <- self_timeLine ;;
      ret ([LF] ++ format_value t ++ [LF; LF] ++ headLine ++ [LF] ++ message)
    else
      ret ([LF] ++ headLine ++ [LF] ++ message).

Definition _formatCompactly : M str :=
  m <- getattr _message "_message" ;;
  let message := indent m (spaces symbolWidth) in
  one <- getattr _inOneLine "_inOneLine" ;;
  if one : bool then
    h <- getattr _head "_head" ;;
    ret (h ++ [SPACE] ++ drop symbolWidth message)
  else
    h <- getattr _head "_head" ;;
    last <- get _last ;;
    if bool_decide (h = head last) then
      (* continue line symbol *)
      c <- lift (getitem colors (lit "time")) ;;
      let message := sgr [MIDDLE_DOT; SPACE] c ++ drop 2 message in
      ret message
    else
      h <- getattr _head "_head" ;;
      ret (h ++ [LF] ++ message).

(** The header text of a record, from the symbol and the two colours
    looked up for it. *)
Definition head_text (record : LogRecord) (symbol : str)
    (symbolColor siteColor : color) : str :=
  let subsystem := if bool_decide (name record = lit "__main__")
                   then lit "main" else name record in
  let head1 := sgr (ljust symbol symbolWidth ++ subsystem) symbolColor in
  let head2 := sgr (lit "[" ++ filename record ++ lit "] " ++ funcName record)
                   siteColor in
  head1 ++ [SPACE] ++ head2.

Definition format (record : LogRecord) : M str :=
  set_record record ;;
  (* self._head *)
  symbolColor <- lift (getitem colors (str_lower (levelname record))) ;;
  siteColor <- lift (getitem colors (lit "file")) ;;
  symbol <- lift (getitem symbols (str_lower (levelname record))) ;;
  set_head (head_text record symbol symbolColor siteColor) ;;
  (* self._message *)
  set_message (strip (message record)) ;;
  (* self._inOneLine *)
  m <- getattr _message "_message" ;;
  (if startswith (lit "o:") m then
     set_inOneLine true ;;
     m <- getattr _message "_message" ;;
     set_message (drop 2 m)
   else
     set_inOneLine false) ;;
  (* format *)
  compact <- get _compact ;;
  lines <- (if negb compact then _formatRegularly else _formatCompactly) ;;
  h <- getattr _head "_head" ;;
  set_last (mk_Last h (relativeCreated record)) ;;
  (* indent 1 space for the sake of aesthetic *)
  ret (indent lines (spaces margin)).

End formatter.

(** ** The session announcer *)

(** A file of the destination store: its text and the time of its last
    modification, in seconds. *)
Record file := mkFile {
  content : str;
  mtime : Q
}.

(** What the announcer reads from and writes to outside the program: the
    files by path, the paths that cannot be opened for appending, the
    readings of [time()] and of [str(datetime.now())], and [sys.argv]. *)
Record world := mkWorld {
  files : gmap str file;
  denied : gset str;
  time_reading : Q;
  datetime_reading : str;
  argv : list str
}.

Abbreviation IO := (state_exn world).

(** [os.path.getmtime(path)] *)
Definition getmtime (path : str) : IO Q :=
  λ w, match files w !! path with
       | Some f => (Ok (mtime f), w)
       | None => (Raise (OSError path), w)
       end.

(** [with open(path, 'a') as file: file.write(text)]: the file is created
    when it is missing, and the text goes after what it holds. *)
Definition append (path : str) (text : str) : IO unit :=
  λ w, if bool_decide (path ∈ denied w) then (Raise (OSError path), w)
       else
         let old := default [] (content <$> files w !! path) in
         (Ok tt, {| files := <[path := mkFile (old ++ text) (time_reading w)]>
                               (files w);
                    denied := denied w;
                    time_reading := time_reading w;
                    datetime_reading := datetime_reading w;
                    argv := argv w |}).

(** The value given for the second destination: [None] is [option]'s
    [None]; otherwise a [Path], a [str], or a value of any other type. *)
Inductive handle :=
  | HPath (path : str)
  | HStr (path : str)
  | HOther.

(** [timeLine or ""] *)
Definition or_empty (timeLine : option str) : str :=
  match timeLine with
  | Some (c :: s) => c :: s
  | _ => []
  end.

Section announcer.
Context `{E : Externals}.

Definition _sessionTimeLine (logFile : str) (interval : Z)
    : IO (option str) :=
  (* time separator *)
  mtime <- getmtime logFile ;;
  now <- get time_reading ;;
  let seconds := (now - mtime)%Q in
  match Qcompare seconds (inject_Z interval) with
  | Gt =>
      let indent := (margin + symbolWidth)%nat in
      td <- lift (timedelta_s seconds) ;;
      let timeLine := replicate indent MIDDLE_DOT
                        ++ lit "[ " ++ timedelta_str td ++ lit " ]" in
      c <- lift (getitem colors (lit "time")) ;;
      let timeLine := sgr timeLine c in
      let padding := replicate sessionTimeLinePadding [] in
      let lines := padding ++ [timeLine] ++ padding in
      ret (Some (join [LF] lines))
  | _ => ret None
  end.

Definition _logSessionLine (logFile : str) (tty : option handle)
    (interval : Z) (compact : bool) : IO unit :=
  symbol <- lift (getitem symbols (lit "launch")) ;;
  let launchSymbol := ljust symbol symbolWidth in
  c <- lift (getitem colors (lit "launch")) ;;
  let launchSymbol := sgr launchSymbol c in
  now <- get datetime_reading ;;
  c <- lift (getitem colors (lit "time")) ;;
  let timestamp := sgr now c in
  args <- get argv ;;
  let cmd := basename (join [SPACE] args) in
  c <- lift (getitem colors (lit "launch")) ;;
  let cmd := sgr cmd c in
  let launchLine := [SPACE] ++ launchSymbol ++ timestamp ++ [SPACE] ++ cmd in
  let launchLine := if compact then [LF] ++ launchLine ++ [LF; LF]
                    else [LF; LF] ++ launchLine ++ [LF; LF] in
  timeLine <- _sessionTimeLine logFile interval ;;
  let launchLine := or_empty timeLine ++ launchLine in
  let launchLine := [ESC] ++ lit "[38;5;242m" ++ launchLine
                      ++ [ESC] ++ lit "[0m" in
  append logFile launchLine ;;
  match tty with
  | None => ret tt
  | Some (HPath path) => append path launchLine
  | Some (HStr path) => append path launchLine
  | Some HOther =>
      raise (RuntimeError
               (lit "argument `tty` must be either of type `Path` or `str`"))
  end.

End announcer.

(** ** Vocabulary of the statements *)

(** A text without a line boundary. *)
Definition no_break (s : str) : bool := forallb (λ c, negb (is_linebreak c)) s.

(** The text of the session block, between the escape sequence of the
    neutral colour and its reset. *)
Definition session_wrap (block : str) : str :=
  [ESC] ++ lit "[38;5;242m" ++ block ++ [ESC] ++ lit "[0m".

(** The text of a run of [format]; a run that raised has none. *)
Definition rendered (run : result str * Formatter) : str :=
  match run.1 with
  | Ok out => out
  | Raise _ => []
  end.

(** The text a destination holds; a missing file holds none. *)
Definition content_of (w : world) (path : str) : str :=
  default [] (content <$> files w !! path).

Section vocabulary.
Context `{E : Externals}.

(** The header computed for a record, when the tables have the entries its
    severity needs. *)
Definition header (record : LogRecord) : option str :=
  symbolColor ← colors !! str_lower (levelname record);
  siteColor ← colors !! lit "file";
  symbol ← symbols !! str_lower (levelname record);
  Some (head_text record symbol symbolColor siteColor).

(** Whether the stripped message carries the one-line prefix. *)
Definition one_line (record : LogRecord) : bool :=
  startswith (lit "o:") (strip (message record)).

(** The message as laid out: stripped, and without the prefix if any. *)
Definition text (record : LogRecord) : str :=
  if one_line record then drop 2 (strip (message record))
  else strip (message record).

(** The message indented by the width of the symbol column. *)
Definition body (record : LogRecord) : str :=
  indent (text record) (spaces symbolWidth).

(** What the Regular layout prints in its time-line slot: the formatted
    value of the expression [self._timeLine]. *)
Definition time_slot (self : Formatter) : str :=
  format_value (PyBoundMethod (lit "Formatter._timeLine") (_id self)).

(** The styled continuation glyph of the Compact layout. *)
Definition glyph (c : color) : str := sgr [MIDDLE_DOT; SPACE] c.

(** The attributes of [self] once [format] has assigned [_record],
    [_head], [_message] and [_inOneLine] for a record with header [h]. *)
Definition prepared (record : LogRecord) (h : str) (self : Formatter)
    : Formatter :=
  {| _id := _id self; _compact := _compact self;
     _interval := _interval self; _last := _last self;
     _record := Some record; _head := Some h;
     _message := Some (text record);
     _inOneLine := Some (one_line record) |}.

(** The same with the memory of the last record replaced. *)
Definition committed (record : LogRecord) (h : str) (self : Formatter)
    : Formatter :=
  {| _id := _id self; _compact := _compact self;
     _interval := _interval self;
     _last := mk_Last h (relativeCreated record);
     _record := Some record; _head := Some h;
     _message := Some (text record);
     _inOneLine := Some (one_line record) |}.

(** A formatter and a record at other times: another interval and time of
    the last record, another time of the record. *)
Definition with_times (self : Formatter) (interval t : Z) : Formatter :=
  {| _id := _id self; _compact := _compact self;
     _interval := interval; _last := mk_Last (head (_last self)) t;
     _record := _record self; _head := _head self;
     _message := _message self; _inOneLine := _inOneLine self |}.

Definition at_time (record : LogRecord) (t : Z) : LogRecord :=
  mkLogRecord (levelname record) (name record) (filename record)
    (funcName record) (message record) t.



End vocabulary.

(** ** A sample configuration

    A colour is the parameter text of an SGR escape sequence; the tables
    hold the five severities, the launch entry and the two auxiliary
    colours. *)
Module Sample.

Definition ansi (text : str) (c : str) : str :=
  [ESC] ++ lit "[" ++ c ++ lit "m" ++ text ++ [ESC] ++ lit "[0m".

Definition palette : gmap str str :=
  list_to_map
    [ (lit "debug", lit "38;5;27"); (lit "info", lit "38;5;34");
      (lit "warning", lit "38;5;220"); (lit "error", lit "38;5;196");
      (lit "critical", lit "38;5;201"); (lit "launch", lit "38;5;242");
      (lit "file", lit "38;5;242"); (lit "time", lit "38;5;238") ].

Definition letters : gmap str str :=
  list_to_map
    [ (lit "debug", lit "D"); (lit "info", lit "I");
      (lit "warning", lit "W"); (lit "error", lit "E");
      (lit "critical", lit "C"); (lit "launch", lit "L") ].

(** Lower-casing of the ASCII letters, which the names of the levels of
    the logging module consist of. *)
Definition lower (s : str) : str :=
  (λ c : N, if (65 <=? c)%N && (c <=? 90)%N then (c + 32)%N else c) <$> s.

#[export] Instance externals : Externals :=
  Build_Externals str ansi palette letters 4 1 1 lower.

(** A formatter that has not formatted anything yet, with the default
    interval. *)
Definition fresh (compact : bool) : Formatter := __init__ 255 compact 2000.

Definition info (msg : string) (ms : Z) : LogRecord :=
  mkLogRecord (lit "INFO") (lit "__main__") (lit "app.py") (lit "run")
    (lit msg) ms.

Definition trace (msg : string) (ms : Z) : LogRecord :=
  mkLogRecord (lit "TRACE") (lit "__main__") (lit "app.py") (lit "run")
    (lit msg) ms.

(** The primary destination, and a store in which it was last modified
    [age] seconds before the reading of the clock. *)
Definition log : str := lit "/home/u/.local/share/app/log/app.log".

Definition store (age : Q) : world :=
  {| files := {[ log := mkFile (lit "earlier") (1000 - age)%Q ]};
     denied := ∅;
     time_reading := 1000%Q;
     datetime_reading := lit "2026-01-01 12:00:00.000000";
     argv := [lit "/usr/bin/app"; lit "run"] |}.

End Sample.

(** ** Vocabulary of the further properties *)

(** A line that is blank or starts with the prefix. *)
Definition margined (prefix line : str) : bool :=
  blank line || startswith prefix line.

(** A line with its ending: characters that are no line boundary, then one
    boundary character or the pair [CR LF]. *)
Inductive ended_line : str → Prop :=
  | ended_boundary (c : N) : is_linebreak c = true → ended_line [c]
  | ended_crlf : ended_line [CR; LF]
  | ended_cons (c : N) (l : str) :
      is_linebreak c = false → ended_line l → ended_line (c :: l).

(** The first of these lines starts with [LF]. *)
Definition starts_LF (ls : list str) : Prop :=
  match ls with
  | (c :: _) :: _ => c = LF
  | _ => False
  end.

(** The lines of a text: ended lines, of which one that ends with a lone
    [CR] is not followed by a line that starts with [LF], and possibly a
    last line without an ending. *)
Inductive text_lines : list str → Prop :=
  | text_lines_nil : text_lines []
  | text_lines_open (l : str) :
      no_break l = true → l ≠ [] → text_lines [l]
  | text_lines_cons (l : str) (ls : list str) :
      ended_line l → (last l = Some CR → ¬ starts_LF ls) →
      text_lines ls → text_lines (l :: ls).

(** ** Further sample records and a configuration without the colour of
    the time line *)
Module Cases.

Definition stop (msg : string) (ms : Z) : LogRecord :=
  mkLogRecord (lit "INFO") (lit "__main__") (lit "app.py") (lit "stop")
    (lit msg) ms.

Definition main_info (msg : string) (ms : Z) : LogRecord :=
  mkLogRecord (lit "INFO") (lit "main") (lit "app.py") (lit "run")
    (lit msg) ms.

Definition bare : Externals :=
  Build_Externals (list N) Sample.ansi (delete (lit "time") Sample.palette)
    Sample.letters 4 1 1 Sample.lower.

Definition tty : str := lit "/dev/pts/3".

Definition nowhere : str := lit "/nowhere/app.log".

End Cases.

(** * Properties *)

(** ** Strings *)

Lemma splitlines_concat_le (n : nat) (s : str) :
  (length s ≤ n)%nat → concat (splitlines s) = s.
Proof.
  revert s. induction n as [|n IH]; intros [|c s'] Hn; try reflexivity.
  { cbn in Hn. lia. }
  cbn in Hn. cbn [splitlines]. destruct (is_linebreak c).
  - destruct s' as [|c' s'']; [reflexivity|]. cbn in Hn.
    destruct ((c =? CR)%N && (c' =? LF)%N); cbn [concat app];
      (rewrite IH; [reflexivity | cbn; lia]).
  - specialize (IH s' ltac:(lia)).
    destruct (splitlines s') as [|l ls].
    + cbn in IH. subst s'. reflexivity.
    + cbn [concat app] in *. now rewrite IH.
Qed.

(** Splitting a text into lines loses no character. *)
Lemma splitlines_concat (s : str) : concat (splitlines s) = s.
Proof. now apply (splitlines_concat_le (length s)). Qed.

Lemma splitlines_no_break (s : str) :
  no_break s = true → s ≠ [] → splitlines s = [s].
Proof.
  induction s as [|c s IH]; [done|].
  intros H _. cbn [no_break forallb] in H.
  apply andb_true_iff in H as [Hc Hs].
  apply negb_true_iff in Hc. cbn [splitlines]. rewrite Hc.
  destruct s as [|c' s']; [reflexivity|].
  now rewrite (IH Hs).
Qed.

(** A text of one line is indented as a whole, unless it is blank. *)
Lemma indent_no_break (s prefix : str) :
  no_break s = true →
  indent s prefix = if blank s then s else prefix ++ s.
Proof.
  intros H. destruct s as [|c s].
  - reflexivity.
  - unfold indent. rewrite (splitlines_no_break _ H); [|done].
    cbn [fmap list_fmap concat]. rewrite app_nil_r. reflexivity.
Qed.

Lemma blank_app (s t : str) : blank (s ++ t) = blank s && blank t.
Proof. apply forallb_app. Qed.

Lemma no_break_app (s t : str) : no_break (s ++ t) = no_break s && no_break t.
Proof. apply forallb_app. Qed.


Lemma no_break_spaces (n : nat) : no_break (spaces n) = true.
Proof. induction n; [reflexivity | assumption]. Qed.

(** What [lstrip] leaves is empty or starts with a character that is not
    white space. *)
Lemma lstrip_first (s : str) :
  match lstrip s with
  | [] => True
  | c :: _ => is_space c = false
  end.
Proof.
  induction s as [|c s IH]; [done|].
  cbn [lstrip]. destruct (is_space c) eqn:Hc; [apply IH | exact Hc].
Qed.

(** A stripped text is empty or ends with a character that is not white
    space. *)
Lemma strip_last (s : str) :
  strip s = [] ∨ ∃ t c, strip s = t ++ [c] ∧ is_space c = false.
Proof.
  unfold strip, rstrip.
  pose proof (lstrip_first (reverse (lstrip s))) as H.
  destruct (lstrip (reverse (lstrip s))) as [|c t].
  - now left.
  - right. exists (reverse t), c. now rewrite reverse_cons.
Qed.

Lemma startswith_self_app (p s : str) : startswith p (p ++ s) = true.
Proof.
  induction p as [|a p IH]; [by destruct s|].
  cbn. now rewrite N.eqb_refl.
Qed.

Lemma contains_app (pre p post : str) : contains (pre ++ p ++ post) p = true.
Proof.
  induction pre as [|c pre IH].
  - cbn [app]. destruct (p ++ post) eqn:Hp.
    + destruct p; [reflexivity | discriminate].
    + cbn [contains]. rewrite <- Hp, startswith_self_app. reflexivity.
  - cbn [app contains]. rewrite IH. apply orb_true_r.
Qed.

(** ** The formatter, case by case *)

(** Runs the monadic code of the formatter as far as the attributes and
    the lookups at hand allow. *)
Ltac run :=
  cbv [format _formatRegularly _formatCompactly self_timeLine
       _timeLine _timeLine_local bind ret lift get getattr raise
       set_record set_head set_message set_inOneLine set_last getitem];
  cbn [_id _compact _interval _last _record _head _message _inOneLine
       head last_relativeCreated is_not_None negb].

Section formatter_facts.
Context `{E : Externals}.

Lemma header_Some (record : LogRecord) (h : str) :
  header record = Some h →
  ∃ symbolColor siteColor symbol,
    colors !! str_lower (levelname record) = Some symbolColor
    ∧ colors !! lit "file" = Some siteColor
    ∧ symbols !! str_lower (levelname record) = Some symbol
    ∧ h = head_text record symbol symbolColor siteColor.
Proof.
  unfold header. intros H.
  destruct (colors !! str_lower (levelname record)) as [sc|]; [|done].
  destruct (colors !! lit "file") as [fc|]; [|done].
  destruct (symbols !! str_lower (levelname record)) as [sym|]; [|done].
  cbn in H. exists sc, fc, sym. by inversion H.
Qed.

(** Without a header nothing is laid out: the lookup that fails raises
    [KeyError], and only [_record] has been assigned. *)
Lemma format_no_header (record : LogRecord) (self : Formatter) :
  header record = None →
  ∃ key, format record self
         = (Raise (KeyError key), snd (set_record record self)).
Proof.
  unfold header. intros H. run.
  destruct (colors !! str_lower (levelname record)) as [sc|]; [|by eexists].
  destruct (colors !! lit "file") as [fc|]; [|by eexists].
  destruct (symbols !! str_lower (levelname record)) as [sym|]; [|by eexists].
  done.
Qed.

(** The Regular layout of a record with header [h]. *)
Lemma format_regular (record : LogRecord) (self : Formatter) (h : str) :
  header record = Some h →
  _compact self = false →
  format record self
  = (Ok (indent ([LF] ++ time_slot self ++ [LF; LF]
                   ++ (if bool_decide (h = head (_last self)) then body record
                       else h ++ [LF] ++ body record))
                (spaces margin)),
     committed record h self).
Proof.
  intros (sc & fc & sym & Hsc & Hfc & Hsym & ->)%header_Some Hc.
  destruct self as [id c i l r0 h0 m0 o0]. cbn in Hc. subst c.
  run. rewrite Hsc, Hfc, Hsym.
  unfold committed, body, text, one_line, time_slot.
  destruct (startswith (lit "o:") (strip (message record))); run;
    case_bool_decide; run; reflexivity.
Qed.

(** The Compact layout of the one-line variant. *)
Lemma format_compact_one_line (record : LogRecord) (self : Formatter) (h : str) :
  header record = Some h →
  _compact self = true →
  one_line record = true →
  format record self
  = (Ok (indent (h ++ [SPACE] ++ drop symbolWidth (body record))
                (spaces margin)),
     committed record h self).
Proof.
  intros (sc & fc & sym & Hsc & Hfc & Hsym & ->)%header_Some Hc Hone.
  destruct self as [id c i l r0 h0 m0 o0]. cbn in Hc. subst c.
  run. rewrite Hsc, Hfc, Hsym.
  unfold committed, body, text. unfold one_line in *. rewrite Hone.
  reflexivity.
Qed.

(** The Compact layout of an ordinary message at another site. *)
Lemma format_compact_other_site (record : LogRecord) (self : Formatter)
    (h : str) :
  header record = Some h →
  _compact self = true →
  one_line record = false →
  h ≠ head (_last self) →
  format record self
  = (Ok (indent (h ++ [LF] ++ body record) (spaces margin)),
     committed record h self).
Proof.
  intros (sc & fc & sym & Hsc & Hfc & Hsym & ->)%header_Some Hc Hone Hne.
  destruct self as [id c i l r0 h0 m0 o0]. cbn in Hc, Hne. subst c.
  run. rewrite Hsc, Hfc, Hsym.
  unfold committed, body, text. unfold one_line in *. rewrite Hone. run.
  rewrite bool_decide_eq_false_2 by done. run. reflexivity.
Qed.

(** The Compact layout of an ordinary message at the site of the last
    record: the glyph needs the colour of the time line. *)
Lemma format_compact_same_site (record : LogRecord) (self : Formatter)
    (h : str) :
  header record = Some h →
  _compact self = true →
  one_line record = false →
  h = head (_last self) →
  format record self
  = match colors !! lit "time" with
    | Some c => (Ok (indent (glyph c ++ drop 2 (body record)) (spaces margin)),
                 committed record h self)
    | None => (Raise (KeyError (lit "time")), prepared record h self)
    end.
Proof.
  intros (sc & fc & sym & Hsc & Hfc & Hsym & Hh)%header_Some Hc Hone He.
  destruct self as [id c i l r0 h0 m0 o0]. cbn in Hc, He. subst c.
  run. rewrite Hsc, Hfc, Hsym.
  unfold committed, prepared, body, text, glyph. unfold one_line in *.
  rewrite Hone. run.
  rewrite <- Hh. rewrite bool_decide_eq_true_2 by done. run.
  destruct (colors !! lit "time"); run; reflexivity.
Qed.

(** A run that returns has found the header, committed it, and laid the
    record out in one of the layouts above. *)
Lemma format_Ok_inv (record : LogRecord) (self : Formatter) (out : str)
    (self' : Formatter) :
  format record self = (Ok out, self') →
  ∃ h, header record = Some h ∧ self' = committed record h self
    ∧ out = indent
              (if _compact self then
                 if one_line record
                 then h ++ [SPACE] ++ drop symbolWidth (body record)
                 else if bool_decide (h = head (_last self))
                      then from_option glyph [] (colors !! lit "time")
                             ++ drop 2 (body record)
                      else h ++ [LF] ++ body record
               else [LF] ++ time_slot self ++ [LF; LF]
                      ++ (if bool_decide (h = head (_last self))
                          then body record
                          else h ++ [LF] ++ body record))
              (spaces margin).
Proof.
  intros Hrun. destruct (header record) as [h|] eqn:Hh.
  2:{ destruct (format_no_header record self Hh) as [key Hk]. congruence. }
  exists h. split; [reflexivity|].
  destruct (_compact self) eqn:Hc.
  - destruct (one_line record) eqn:Hone.
    + rewrite (format_compact_one_line _ _ _ Hh Hc Hone) in Hrun.
      by inversion Hrun.
    + case_bool_decide as Hsite.
      * rewrite (format_compact_same_site _ _ _ Hh Hc Hone Hsite) in Hrun.
        destruct (colors !! lit "time"); [by inversion Hrun | done].
      * rewrite (format_compact_other_site _ _ _ Hh Hc Hone Hsite) in Hrun.
        by inversion Hrun.
  - rewrite (format_regular _ _ _ Hh Hc) in Hrun. by inversion Hrun.
Qed.

Lemma head_text_nonempty (record : LogRecord) (symbol : str)
    (symbolColor siteColor : color) :
  head_text record symbol symbolColor siteColor ≠ [].
Proof.
  unfold head_text. cbv zeta.
  destruct (sgr (ljust symbol symbolWidth ++ _) symbolColor); discriminate.
Qed.

Lemma header_nonempty (record : LogRecord) (h : str) :
  header record = Some h → h ≠ [].
Proof.
  intros (sc & fc & sym & _ & _ & _ & ->)%header_Some.
  apply head_text_nonempty.
Qed.


(** The Regular layout does not read the one-line flag. *)
Lemma _formatRegularly_ignores_flag (self : Formatter) (b : bool) :
  (_formatRegularly (set_inOneLine b self).2).1 = (_formatRegularly self).1.
Proof.
  destruct self as [id c i l r0 [h0|] [m0|] o0]; run; cbn [fst snd]; run;
    try reflexivity.
  case_bool_decide; reflexivity.
Qed.

End formatter_facts.

(** ** What every render does to the memory of the last record *)

Section formatter_claims.
Context `{E : Externals}.

(** C8: after a render that returns, the memory of the formatter is the
    header computed for this record together with the time of this record,
    whatever layout the text took. *)
Theorem render_commits_last (record : LogRecord) (self self' : Formatter)
    (out : str) :
  format record self = (Ok out, self') →
  ∃ h, header record = Some h
       ∧ _last self' = mk_Last h (relativeCreated record).
Proof.
  intros (h & Hh & -> & _)%format_Ok_inv. by exists h.
Qed.

(** C6: a record whose severity has no entry in the table of colours or in
    the table of symbols makes the render raise [KeyError], and the memory
    of the last record is as it was before the call. *)
Theorem unknown_severity_raises (record : LogRecord) (self : Formatter) :
  colors !! str_lower (levelname record) = None
  ∨ symbols !! str_lower (levelname record) = None →
  ∃ key, (format record self).1 = Raise (KeyError key)
         ∧ _last (format record self).2 = _last self.
Proof.
  intros Hmiss.
  assert (header record = None) as Hh.
  { unfold header. destruct Hmiss as [-> | Hs]; [reflexivity|].
    destruct (colors !! str_lower (levelname record)); [|reflexivity].
    cbn [mbind option_bind].
    destruct (colors !! lit "file"); [|reflexivity].
    cbn [mbind option_bind]. by rewrite Hs. }
  destruct (format_no_header record self Hh) as [key ->].
  by exists key.
Qed.

(** C9: the first render of a new formatter prints the header, in either
    mode, and never the continuation glyph: the computed header is not the
    empty text that the memory starts with. *)
Theorem first_render_prints_header (id : N) (compact : bool) (interval : Z)
    (record : LogRecord) (out : str) (self' : Formatter) :
  format record (__init__ id compact interval) = (Ok out, self') →
  ∃ h, header record = Some h
       ∧ h ≠ head (_last (__init__ id compact interval))
       ∧ out = indent
                 (if compact then
                    if one_line record
                    then h ++ [SPACE] ++ drop symbolWidth (body record)
                    else h ++ [LF] ++ body record
                  else [LF] ++ time_slot (__init__ id compact interval)
                         ++ [LF; LF] ++ h ++ [LF] ++ body record)
                 (spaces margin).
Proof.
  intros (h & Hh & _ & ->)%format_Ok_inv. exists h.
  pose proof (header_nonempty _ _ Hh) as Hne.
  split; [done|]. split; [done|].
  cbn [__init__ _compact _last head].
  rewrite bool_decide_eq_false_2 by done. reflexivity.
Qed.

(** C10: in Regular mode a message with the one-line prefix loses the
    prefix and is laid out like any other message, as an indented body
    under the usual lines; the layout does not read the one-line flag. *)
Theorem regular_strips_prefix (record : LogRecord) (self : Formatter)
    (h : str) :
  header record = Some h →
  _compact self = false →
  one_line record = true →
  (format record self).1
  = Ok (indent ([LF] ++ time_slot self ++ [LF; LF]
                  ++ (if bool_decide (h = head (_last self)) then []
                      else h ++ [LF])
                  ++ indent (drop 2 (strip (message record)))
                       (spaces symbolWidth))
               (spaces margin))
  ∧ _message (format record self).2 = Some (drop 2 (strip (message record)))
  ∧ _inOneLine (format record self).2 = Some true
  ∧ ∀ (other : Formatter) (flag : bool),
      (_formatRegularly (set_inOneLine flag other).2).1
      = (_formatRegularly other).1.
Proof.
  intros Hh Hc Hone. rewrite (format_regular _ _ _ Hh Hc).
  cbn [fst snd committed _message _inOneLine].
  unfold body, text. rewrite Hone.
  split; [|split; [reflexivity|split; [reflexivity|]]].
  - case_bool_decide; [reflexivity|]. by rewrite <- !app_assoc.
  - intros other flag. apply _formatRegularly_ignores_flag.
Qed.

(** C2, as the code has it: when two consecutive renders compute the same
    header, the second text is laid out without it in Regular mode (blank
    line, time-line slot, blank line, body) and, for a message without the
    one-line prefix, in Compact mode (continuation glyph, body); the
    one-line variant of Compact mode prints the header again. *)
Theorem same_site_second_render (r1 r2 : LogRecord)
    (self s1 s2 : Formatter) (o1 o2 h : str) :
  format r1 self = (Ok o1, s1) →
  format r2 s1 = (Ok o2, s2) →
  header r1 = Some h →
  header r2 = Some h →
  if _compact self then
    if one_line r2 then
      o2 = indent (h ++ [SPACE] ++ drop symbolWidth (body r2)) (spaces margin)
    else
      ∃ c, colors !! lit "time" = Some c
           ∧ o2 = indent (glyph c ++ drop 2 (body r2)) (spaces margin)
  else
    o2 = indent ([LF] ++ time_slot self ++ [LF; LF] ++ body r2)
           (spaces margin).
Proof.
  intros (h1 & Hh1 & -> & _)%format_Ok_inv Hrun2 H1 H2.
  assert (h1 = h) as -> by congruence.
  destruct (_compact self) eqn:Hc.
  - destruct (one_line r2) eqn:Hone.
    + rewrite (format_compact_one_line r2 _ h H2) in Hrun2 by done.
      by inversion Hrun2.
    + rewrite (format_compact_same_site r2 _ h H2) in Hrun2 by done.
      destruct (colors !! lit "time") as [c|]; [|done].
      exists c. split; [reflexivity|]. by inversion Hrun2.
  - rewrite (format_regular r2 _ h H2) in Hrun2 by done.
    cbn [committed _last head] in Hrun2.
    rewrite bool_decide_eq_true_2 in Hrun2 by done. by inversion Hrun2.
Qed.

(** The Compact layouts read neither the interval nor the two times. *)
Lemma compact_ignores_times (record : LogRecord) (self : Formatter)
    (interval t0 t : Z) :
  _compact self = true →
  (format (at_time record t) (with_times self interval t0)).1
  = (format record self).1.
Proof.
  intros Hc. destruct self as [id c i [lh lt] r0 h0 m0 o0].
  cbn in Hc. subst c. destruct record as [lv nm fl fn msg rc].
  unfold with_times, at_time. run.
  cbn [levelname name filename funcName message relativeCreated].
  destruct (colors !! str_lower lv) as [sc|]; [|reflexivity].
  destruct (colors !! lit "file") as [fc|]; [|reflexivity].
  destruct (symbols !! str_lower lv) as [sym|]; [|reflexivity].
  run. destruct (startswith (lit "o:") (strip msg)); run; [reflexivity|].
  unfold head_text. cbn [name filename funcName].
  case_bool_decide; run; [|reflexivity].
  destruct (colors !! lit "time"); reflexivity.
Qed.

(** Neither does the Regular layout: its text is the same whatever the
    gap and the interval are. *)
Lemma regular_ignores_times (record : LogRecord) (self : Formatter)
    (interval t0 t : Z) :
  _compact self = false →
  (format (at_time record t) (with_times self interval t0)).1
  = (format record self).1.
Proof.
  intros Hc. destruct self as [id c i [lh lt] r0 h0 m0 o0].
  cbn in Hc. subst c. destruct record as [lv nm fl fn msg rc].
  unfold with_times, at_time. run.
  cbn [levelname name filename funcName message relativeCreated].
  destruct (colors !! str_lower lv) as [sc|]; [|reflexivity].
  destruct (colors !! lit "file") as [fc|]; [|reflexivity].
  destruct (symbols !! str_lower lv) as [sym|]; [|reflexivity].
  run. unfold head_text. cbn [name filename funcName].
  destruct (startswith (lit "o:") (strip msg)); run;
    case_bool_decide; run; reflexivity.
Qed.

(** A call of [_timeLine] that returns, returns [None]. *)
Lemma _timeLine_returns_None (self self' : Formatter) (v : pyobj) :
  _timeLine self = (Ok v, self') → v = PyNone.
Proof.
  unfold _timeLine, bind, ret.
  destruct (_timeLine_local self) as [[tl|e] s]; [|done].
  by intros [= <- _].
Qed.

(** C3, as the code has it: in Compact mode the text is the same whatever
    the gap since the last record, so no marker line is ever part of it;
    in Regular mode the slot of the time line comes first, before the
    header and the body, not between them. *)
Theorem gap_marker_layout (record : LogRecord) (self : Formatter) (h : str) :
  header record = Some h →
  (_compact self = true →
   ∀ interval t0 t,
     (format (at_time record t) (with_times self interval t0)).1
     = (format record self).1)
  ∧ (_compact self = false →
     (format record self).1
     = Ok (indent ([LF] ++ time_slot self ++ [LF; LF]
                     ++ (if bool_decide (h = head (_last self))
                         then body record
                         else h ++ [LF] ++ body record))
                  (spaces margin))).
Proof.
  intros Hh. split.
  - intros Hc interval t0 t. by apply compact_ignores_times.
  - intros Hc. by rewrite (format_regular _ _ _ Hh Hc).
Qed.


End formatter_claims.

(** ** The session announcer *)

Section announcer_claims.
Context `{E : Externals}.


Lemma content_of_append (w w' : world) (path text : str) :
  append path text w = (Ok tt, w') →
  content_of w' path = content_of w path ++ text.
Proof.
  unfold append. case_bool_decide; [done|].
  intros [= <-]. unfold content_of. cbn [files].
  by rewrite lookup_insert_eq.
Qed.



(** The announce with a second destination of an unsupported type does
    what the announce without a second destination does, and then
    raises. *)
Lemma announce_unsupported (w : world) (logFile : str) (interval : Z)
    (compact : bool) :
  _logSessionLine logFile (Some HOther) interval compact w
  = match _logSessionLine logFile None interval compact w with
    | (Ok _, w') =>
        (Raise (RuntimeError
                  (lit "argument `tty` must be either of type `Path` or `str`")),
         w')
    | (Raise e, w') => (Raise e, w')
    end.
Proof.
  unfold _logSessionLine, bind, lift, get, getitem, ret, raise.
  repeat match goal with
         | |- context [match ?x with _ => _ end] =>
             destruct x; try reflexivity
         end.
Qed.

(** Computing the separator writes nothing. *)
Lemma _sessionTimeLine_reads_only (logFile : str) (interval : Z) (w : world) :
  (_sessionTimeLine logFile interval w).2 = w.
Proof.
  unfold _sessionTimeLine, bind, getmtime, get, ret, lift, getitem.
  destruct (files w !! logFile) as [f|]; [|reflexivity].
  destruct (Qcompare _ _); try reflexivity.
  destruct (timedelta_s _); [|reflexivity].
  destruct (colors !! lit "time"); reflexivity.
Qed.

(** An announce that returns has appended a block to the primary
    destination. *)
Lemma announce_appends (w w' : world) (logFile : str) (interval : Z)
    (compact : bool) :
  _logSessionLine logFile None interval compact w = (Ok tt, w') →
  ∃ block, content_of w' logFile
           = content_of w logFile ++ session_wrap block.
Proof.
  unfold _logSessionLine, bind, lift, get, getitem, ret.
  destruct (symbols !! lit "launch") as [symbol|]; [|done].
  destruct (colors !! lit "launch") as [lc|]; [|done].
  destruct (colors !! lit "time") as [tc|]; [|done].
  destruct (_sessionTimeLine logFile interval w) as [[tl|e] w1] eqn:Hline;
    [|done].
  assert (w1 = w) as ->.
  { pose proof (_sessionTimeLine_reads_only logFile interval w) as Hw.
    by rewrite Hline in Hw. }
  destruct (append logFile _ w) as [[[]|e] w2] eqn:Happ; [|done].
  intros [= <-]. eexists.
  rewrite (content_of_append _ _ _ _ Happ). reflexivity.
Qed.

(** C7, as the code has it: with a second destination that is neither a
    [Path] nor a [str], the announce raises its [RuntimeError] only after
    the session block has been appended to the primary destination: the
    primary destination holds the block when the error is raised, and the
    store is the one an announce without a second destination leaves. *)
Theorem unsupported_tty_raises_after_write (w w' : world) (logFile : str)
    (interval : Z) (compact : bool) :
  _logSessionLine logFile None interval compact w = (Ok tt, w') →
  _logSessionLine logFile (Some HOther) interval compact w
  = (Raise (RuntimeError
              (lit "argument `tty` must be either of type `Path` or `str`")),
     w')
  ∧ ∃ block, content_of w' logFile
             = content_of w logFile ++ session_wrap block.
Proof.
  intros Hrun. split.
  - by rewrite announce_unsupported, Hrun.
  - by apply announce_appends in Hrun.
Qed.

End announcer_claims.

(** ** The lines of a text and its indentation *)

Lemma is_linebreak_is_space (c : N) : is_linebreak c = true → is_space c = true.
Proof.
  unfold is_linebreak, is_space.
  rewrite !orb_true_iff, !andb_true_iff, !N.leb_le, !N.eqb_eq. lia.
Qed.

Lemma ended_line_nonempty (l : str) : ended_line l → l ≠ [].
Proof. by destruct 1. Qed.

Lemma ended_line_blank_end (l : str) :
  ended_line l → ∃ b c, l = b ++ [c] ∧ is_linebreak c = true.
Proof.
  induction 1 as [c Hc| |c l Hc Hl (b & e & -> & He)].
  - by exists [], c.
  - by exists [CR], LF.
  - by exists (c :: b), e.
Qed.

(** An ended line in front of a text is the first line of the whole,
    unless its lone [CR] meets an [LF]. *)
Lemma splitlines_ended_app (l rest : str) :
  ended_line l →
  (last l = Some CR → match rest with c :: _ => c ≠ LF | [] => True end) →
  splitlines (l ++ rest) = l :: splitlines rest.
Proof.
  induction 1 as [c Hc| |c l Hc Hl IH]; intros Hcr.
  - cbn [app splitlines]. rewrite Hc. destruct rest as [|c' rest']; [done|].
    destruct (N.eqb_spec c CR) as [->|Hne]; cbn [andb]; [|done].
    destruct (N.eqb_spec c' LF) as [->|Hne']; [|done].
    by destruct (Hcr eq_refl).
  - reflexivity.
  - cbn [app splitlines]. rewrite Hc, IH; [done|].
    intros Hlast. apply Hcr. destruct l; [by inversion Hl|done].
Qed.

Lemma text_lines_nonempty (ls : list str) :
  text_lines ls → Forall (λ l, l ≠ []) ls.
Proof.
  induction 1 as [|l Hl Hne|l ls Hl Hcr Hls IH]; constructor; try done.
  by apply ended_line_nonempty.
Qed.

(** Lines of this shape are what [splitlines] gives back for their
    concatenation. *)
Lemma splitlines_text_lines (ls : list str) :
  text_lines ls → splitlines (concat ls) = ls.
Proof.
  induction 1 as [|l Hl Hne|l ls Hl Hcr Hls IH].
  - reflexivity.
  - cbn [concat]. rewrite app_nil_r. by apply splitlines_no_break.
  - cbn [concat]. rewrite splitlines_ended_app, IH; [done..|].
    intros Hlast. specialize (Hcr Hlast).
    pose proof (text_lines_nonempty _ Hls) as Hall.
    destruct ls as [|[|c l'] ls']; [done| |].
    + by inversion Hall.
    + cbn [concat app]. intros ->. by apply Hcr.
Qed.

Lemma splitlines_first (c : N) (s : str) :
  ∃ l ls, splitlines (c :: s) = (c :: l) :: ls.
Proof.
  cbn [splitlines]. destruct (is_linebreak c).
  - destruct s as [|c' s']; [by eexists _, _|].
    destruct (_ && _); by eexists _, _.
  - destruct (splitlines s); by eexists _, _.
Qed.

Lemma text_lines_splitlines_le (n : nat) (s : str) :
  (length s ≤ n)%nat → text_lines (splitlines s).
Proof.
  revert s. induction n as [|n IH]; intros [|c s'] Hn; try constructor.
  { cbn in Hn. lia. }
  cbn in Hn. cbn [splitlines]. destruct (is_linebreak c) eqn:Hc.
  - destruct s' as [|c' s''].
    + apply text_lines_cons; [by constructor| |constructor].
      intros _. cbn. tauto.
    + cbn in Hn.
      destruct (N.eqb_spec c CR) as [->|Hne]; cbn [andb].
      * destruct (N.eqb_spec c' LF) as [->|Hne'].
        -- apply text_lines_cons; [constructor| |apply IH; lia].
           cbn. intros [=].
        -- apply text_lines_cons; [by constructor| |apply IH; cbn; lia].
           intros _.
           destruct (splitlines_first c' s'') as (l & ls & ->). done.
      * apply text_lines_cons; [by constructor| |apply IH; cbn; lia].
        cbn. congruence.
  - specialize (IH s' ltac:(lia)).
    destruct (splitlines s') as [|l ls].
    + apply text_lines_open; [|done]. cbn. by rewrite Hc.
    + inversion IH as [|l0 Hl Hne|l0 ls0 Hl Hcr Hls]; subst.
      * apply text_lines_open; [|done]. cbn. by rewrite Hc.
      * apply text_lines_cons; [by constructor| |done].
        intros Hlast. apply Hcr.
        destruct l; [by inversion Hl|done].
Qed.

(** [splitlines] gives lines of this shape. *)
Lemma text_lines_splitlines (s : str) : text_lines (splitlines s).
Proof. by apply (text_lines_splitlines_le (length s)). Qed.

Lemma ended_line_prefix (p l : str) :
  no_break p = true → ended_line l → ended_line (p ++ l).
Proof.
  induction p as [|c p IH]; [done|].
  cbn [no_break forallb]. intros [Hc Hp]%andb_true_iff Hl.
  apply negb_true_iff in Hc. cbn [app]. constructor; [done|by apply IH].
Qed.

(** Putting a prefix without line boundary before the lines that are not
    blank keeps the shape. *)
Lemma text_lines_prefix (p : str) (ls : list str) :
  no_break p = true →
  text_lines ls →
  text_lines ((λ l, if blank l then l else p ++ l) <$> ls).
Proof.
  intros Hp. induction 1 as [|l Hl Hne|l ls Hl Hcr Hls IH].
  - constructor.
  - cbn. destruct (blank l); apply text_lines_open; try done.
    + by rewrite no_break_app, Hp, Hl.
    + by destruct p, l.
  - cbn [fmap list_fmap]. apply text_lines_cons; [| |done].
    + destruct (blank l); [done|by apply ended_line_prefix].
    + intros Hlast. assert (last l = Some CR) as Hl'.
      { destruct (blank l); [done|].
        rewrite last_app in Hlast.
        destruct (last l) eqn:E; [done|].
        apply last_None in E. by apply ended_line_nonempty in Hl. }
      specialize (Hcr Hl'). destruct ls as [|l' ls']; [done|].
      cbn [starts_LF] in Hcr. cbn [fmap list_fmap starts_LF].
      destruct (blank l'); [done|].
      destruct p as [|c p']; [done|]. cbn [app].
      intros ->. cbn in Hp. discriminate.
Qed.

(** [textwrap.indent] works line by line: the lines of the indented text
    are the lines of the text, each with the prefix unless it is blank. *)
Lemma splitlines_indent (s p : str) :
  no_break p = true →
  splitlines (indent s p)
  = (λ l, if blank l then l else p ++ l) <$> splitlines s.
Proof.
  intros Hp. unfold indent. apply splitlines_text_lines.
  apply text_lines_prefix; [done|]. apply text_lines_splitlines.
Qed.

Lemma indent_margined (s p : str) :
  no_break p = true →
  Forall (λ l, margined p l = true) (splitlines (indent s p)).
Proof.
  intros Hp. rewrite splitlines_indent by done.
  apply Forall_fmap, Forall_forall. intros l _. unfold margined, compose.
  cbv beta. destruct (blank l) eqn:Hb; [by rewrite Hb|].
  rewrite startswith_self_app. apply orb_true_r.
Qed.

(** What [rstrip] keeps of a text that begins with a character that is
    not white space. *)
Lemma lstrip_snoc (s : str) (c : N) :
  is_space c = false → lstrip (s ++ [c]) = lstrip s ++ [c].
Proof.
  intros Hc. induction s as [|a s IH]; cbn [app lstrip].
  - by rewrite Hc.
  - by destruct (is_space a).
Qed.

Lemma rstrip_cons (c : N) (s : str) :
  is_space c = false → rstrip (c :: s) = c :: rstrip s.
Proof.
  intros Hc. unfold rstrip.
  by rewrite reverse_cons, lstrip_snoc, reverse_app.
Qed.

Lemma lstrip_blank_app (ws s : str) :
  blank ws = true → lstrip (ws ++ s) = lstrip s.
Proof.
  induction ws as [|c ws IH]; [done|].
  cbn [blank forallb app lstrip]. intros [-> H]%andb_true_iff. by apply IH.
Qed.


(** ** The formatter: errors, memory and lines *)

Section formatter_more.
Context `{E : Externals}.

(** What a render gives and remembers depends on the formatter only
    through its identity, its mode and its memory of the last record. *)
Lemma format_frame (record : LogRecord) (s1 s2 : Formatter) :
  _id s1 = _id s2 → _compact s1 = _compact s2 → _last s1 = _last s2 →
  (format record s1).1 = (format record s2).1
  ∧ _last (format record s1).2 = _last (format record s2).2.
Proof.
  destruct s1 as [id1 c1 i1 l1 r1 h1 m1 o1], s2 as [id2 c2 i2 l2 r2 h2 m2 o2].
  cbn [_id _compact _last]. intros -> -> ->. run.
  destruct (colors !! str_lower (levelname record)) as [sc|]; [|done].
  destruct (colors !! lit "file") as [fc|]; [|done].
  destruct (symbols !! str_lower (levelname record)) as [sym|]; [|done].
  run. destruct (startswith (lit "o:") (strip (message record))); run;
    destruct c2; run; try done; case_bool_decide; run; try done;
    destruct (colors !! lit "time"); done.
Qed.

(** A render that raises leaves identity, mode and memory as they were. *)
Lemma format_Raise_state (record : LogRecord) (self : Formatter) (e : exn) :
  (format record self).1 = Raise e →
  _id (format record self).2 = _id self
  ∧ _compact (format record self).2 = _compact self
  ∧ _last (format record self).2 = _last self.
Proof.
  destruct (header record) as [h|] eqn:Hh.
  2:{ destruct (format_no_header record self Hh) as [key ->]. done. }
  destruct (_compact self) eqn:Hc.
  - destruct (one_line record) eqn:Hone.
    + by rewrite (format_compact_one_line _ _ _ Hh Hc Hone).
    + destruct (decide (h = head (_last self))) as [Hs|Hs].
      * rewrite (format_compact_same_site _ _ _ Hh Hc Hone Hs).
        by destruct (colors !! lit "time").
      * by rewrite (format_compact_other_site _ _ _ Hh Hc Hone Hs).
  - by rewrite (format_regular _ _ _ Hh Hc).
Qed.

(** X1: a render that raised is not seen by the next render: the text or the
    exception of the next render, and what it remembers, are those it
    would have given without the failed call. *)
Theorem failed_render_leaves_no_trace (r1 r2 : LogRecord) (self : Formatter)
    (e : exn) :
  (format r1 self).1 = Raise e →
  (format r2 (format r1 self).2).1 = (format r2 self).1
  ∧ _last (format r2 (format r1 self).2).2 = _last (format r2 self).2.
Proof.
  intros (Hid & Hc & Hl)%format_Raise_state. by apply format_frame.
Qed.

(** X2: the formatter remembers one record only: after the same record has
    been rendered, the next text is the same whatever was rendered
    before. *)
Theorem memory_is_one_record (r1 r2 : LogRecord) (self self' s1 s1' : Formatter)
    (o1 o1' : str) :
  _id self = _id self' →
  _compact self = _compact self' →
  format r1 self = (Ok o1, s1) →
  format r1 self' = (Ok o1', s1') →
  (format r2 s1).1 = (format r2 s1').1.
Proof.
  intros Hid Hc (h & Hh & -> & _)%format_Ok_inv (h' & Hh' & -> & _)%format_Ok_inv.
  assert (h' = h) as -> by congruence.
  by apply format_frame.
Qed.

(** X3: when the site changes, the header is printed: in either mode the text
    of a record whose header differs from the last one holds the header
    before the body, and the render returns. *)
Theorem site_change_prints_header (r1 r2 : LogRecord) (self s1 : Formatter)
    (o1 h1 h2 : str) :
  format r1 self = (Ok o1, s1) →
  header r1 = Some h1 →
  header r2 = Some h2 →
  h1 ≠ h2 →
  format r2 s1
  = (Ok (indent
           (if _compact self then
              if one_line r2
              then h2 ++ [SPACE] ++ drop symbolWidth (body r2)
              else h2 ++ [LF] ++ body r2
            else [LF] ++ time_slot self ++ [LF; LF]
                   ++ h2 ++ [LF] ++ body r2)
           (spaces margin)),
     committed r2 h2 s1).
Proof.
  intros (h & Hh & -> & _)%format_Ok_inv H1 H2 Hne.
  assert (h = h1) as -> by congruence.
  destruct (_compact self) eqn:Hc.
  - destruct (one_line r2) eqn:Hone.
    + by rewrite (format_compact_one_line r2 _ h2 H2).
    + by rewrite (format_compact_other_site r2 _ h2 H2).
  - rewrite (format_regular r2 _ h2 H2) by done.
    cbn [committed _last head]. rewrite bool_decide_eq_false_2 by congruence.
    reflexivity.
Qed.


(** X5: without a colour for the glyph, a continuation in Compact mode raises
    [KeyError] for the key ['time'] after [_head], [_message] and
    [_inOneLine] have been assigned, and before the memory of the last
    record is; rendering the record again raises the same way. *)
Theorem continuation_needs_time_colour (record : LogRecord) (self : Formatter)
    (h : str) :
  header record = Some h →
  _compact self = true →
  one_line record = false →
  h = head (_last self) →
  colors !! lit "time" = None →
  format record self = (Raise (KeyError (lit "time")), prepared record h self)
  ∧ _last (prepared record h self) = _last self
  ∧ format record (prepared record h self)
    = (Raise (KeyError (lit "time")), prepared record h self).
Proof.
  intros Hh Hc Hone Hs Ht.
  rewrite (format_compact_same_site _ _ _ Hh Hc Hone Hs), Ht.
  split; [done|]. split; [done|].
  rewrite (format_compact_same_site record (prepared record h self) h);
    try done.
  by rewrite Ht.
Qed.

(** X6: neither the interval nor the time of a record or of the last one has
    any effect on what a render gives, in either mode. *)
Theorem format_ignores_times (record : LogRecord) (self : Formatter)
    (interval t0 t : Z) :
  (format (at_time record t) (with_times self interval t0)).1
  = (format record self).1.
Proof.
  destruct (_compact self) eqn:Hc.
  - by apply compact_ignores_times.
  - by apply regular_ignores_times.
Qed.

Lemma indent_LF (s p : str) : indent (LF :: s) p = LF :: indent s p.
Proof. unfold indent. cbn [splitlines]. by destruct s. Qed.

(** X7: every line of a rendered text is blank or starts with the margin, and
    the text of Regular mode starts with an empty line. *)
Theorem rendered_lines_margined (record : LogRecord) (self self' : Formatter)
    (out : str) :
  format record self = (Ok out, self') →
  Forall (λ l, margined (spaces margin) l = true) (splitlines out)
  ∧ (_compact self = false → ∃ rest, out = LF :: rest).
Proof.
  intros (h & Hh & _ & ->)%format_Ok_inv. split.
  - apply indent_margined, no_break_spaces.
  - intros ->. cbn [app]. rewrite indent_LF. by eexists.
Qed.

Lemma strip_blank_empty (s : str) : blank (strip s) = true → strip s = [].
Proof.
  destruct (strip_last s) as [->|(t & c & -> & Hc)]; [done|].
  rewrite blank_app. cbn [blank forallb]. rewrite Hc.
  by rewrite !andb_false_r.
Qed.

(** X8: with a symbol column of two characters or more, the continuation
    glyph of Compact mode takes the place of two spaces of the column and
    the message follows whole. *)
Theorem continuation_keeps_message (record : LogRecord) (self : Formatter)
    (h : str) (c : color) :
  header record = Some h →
  _compact self = true →
  one_line record = false →
  h = head (_last self) →
  colors !! lit "time" = Some c →
  (2 ≤ symbolWidth)%nat →
  no_break (text record) = true →
  text record ≠ [] →
  format record self
  = (Ok (indent (glyph c ++ spaces (symbolWidth - 2) ++ text record)
           (spaces margin)),
     committed record h self).
Proof.
  intros Hh Hc Hone Hs Ht Hw Hnb Hne.
  rewrite (format_compact_same_site _ _ _ Hh Hc Hone Hs), Ht.
  assert (blank (text record) = false) as Hb.
  { assert (text record = strip (message record)) as Htx.
    { unfold text. by rewrite Hone. }
    destruct (blank (text record)) eqn:Hb; [|done].
    rewrite Htx in Hb, Hne. apply strip_blank_empty in Hb. contradiction. }
  unfold body. rewrite (indent_no_break (text record)), Hb by done.
  unfold spaces. rewrite drop_app_le by (rewrite length_replicate; lia).
  by rewrite drop_replicate.
Qed.

(** X9: the one-line prefix is looked for after the message has been
    stripped: white space before the prefix does not hide it, and what
    follows the prefix keeps its leading white space and loses its
    trailing one. *)
Theorem prefix_after_white_space (record : LogRecord) (ws rest : str) :
  blank ws = true →
  message record = ws ++ lit "o:" ++ rest →
  one_line record = true ∧ text record = rstrip rest.
Proof.
  intros Hws Hm.
  assert (strip (message record) = lit "o:" ++ rstrip rest) as Hs.
  { rewrite Hm. unfold strip. rewrite lstrip_blank_app by done.
    change (lit "o:" ++ rest) with (111%N :: 58%N :: rest).
    cbn [lstrip]. change (is_space 111) with false. cbv iota.
    by rewrite !rstrip_cons. }
  unfold text, one_line. rewrite Hs, startswith_self_app. done.
Qed.

(** X10: the logger names ['__main__'] and ['main'] are one subsystem: a record
    of the one after a record of the other, with the same severity, file
    and function, is rendered as a record of the same site. *)
Theorem main_alias_is_one_site (r1 r2 : LogRecord) (self s1 : Formatter)
    (o1 : str) :
  format r1 self = (Ok o1, s1) →
  name r1 = lit "__main__" →
  name r2 = lit "main" →
  levelname r1 = levelname r2 →
  filename r1 = filename r2 →
  funcName r1 = funcName r2 →
  header r1 = header r2
  ∧ (_compact self = false →
     (format r2 s1).1
     = Ok (indent ([LF] ++ time_slot self ++ [LF; LF] ++ body r2)
             (spaces margin))).
Proof.
  intros (h & Hh & -> & _)%format_Ok_inv Hn1 Hn2 Hlv Hfl Hfn.
  assert (header r1 = header r2) as Heq.
  { unfold header, head_text. by rewrite Hn1, Hn2, Hlv, Hfl, Hfn. }
  split; [done|]. intros Hc.
  rewrite (format_regular r2 _ h); [|congruence|done].
  cbn [committed _last head fst _id].
  by rewrite bool_decide_eq_true_2.
Qed.

(** X11: a render never changes the identity, the mode or the interval of the
    formatter, whether it returns or raises. *)
Theorem format_keeps_configuration (record : LogRecord) (self : Formatter) :
  _id (format record self).2 = _id self
  ∧ _compact (format record self).2 = _compact self
  ∧ _interval (format record self).2 = _interval self.
Proof.
  destruct (header record) as [h|] eqn:Hh.
  2:{ destruct (format_no_header record self Hh) as [key ->]. done. }
  destruct (_compact self) eqn:Hc.
  - destruct (one_line record) eqn:Hone.
    + by rewrite (format_compact_one_line _ _ _ Hh Hc Hone).
    + destruct (decide (h = head (_last self))) as [Hs|Hs].
      * rewrite (format_compact_same_site _ _ _ Hh Hc Hone Hs).
        by destruct (colors !! lit "time").
      * by rewrite (format_compact_other_site _ _ _ Hh Hc Hone Hs).
  - by rewrite (format_regular _ _ _ Hh Hc).
Qed.

(** X12: a call of [_timeLine] changes nothing of the formatter and gives no
    text: it returns [None] or raises. *)
Theorem _timeLine_is_inert (self : Formatter) :
  (_timeLine self).2 = self
  ∧ ((_timeLine self).1 = Ok PyNone ∨ ∃ e, (_timeLine self).1 = Raise e).
Proof.
  destruct self as [id c i l [r|] h m o]; run; [|split; [done|right; eauto]].
  destruct (_ >? _); run; [|by split; [|left]].
  destruct (timedelta_ms _); run; [|split; [done|right; eauto]].
  destruct (colors !! lit "time"); run; split; try done; [by left|right; eauto].
Qed.

End formatter_more.

(** ** The announcer: destinations and failures *)

Section announcer_more.
Context `{E : Externals}.

Lemma append_Ok (path text : str) (w w' : world) :
  append path text w = (Ok tt, w') →
  (path ∉ denied w)
  ∧ files w'
    = (<[path := mkFile (content_of w path ++ text) (time_reading w)]>
         (files w))
  ∧ denied w' = denied w.
Proof.
  unfold append. case_bool_decide; [done|]. by intros [= <-].
Qed.

Lemma append_Raise (path text : str) (w w' : world) (e : exn) :
  append path text w = (Raise e, w') → w' = w.
Proof. unfold append. case_bool_decide; by intros [= _ <-]. Qed.

Lemma append_writable (path text : str) (w : world) :
  path ∉ denied w → ∃ w', append path text w = (Ok tt, w').
Proof.
  intros H. unfold append. rewrite bool_decide_eq_false_2 by done. by eexists.
Qed.

(** An announce is the write of one block to the primary destination,
    followed by what the second destination calls for. *)
Lemma announce_decompose (w w1 : world) (logFile : str) (interval : Z)
    (compact : bool) :
  _logSessionLine logFile None interval compact w = (Ok tt, w1) →
  ∃ block,
    append logFile (session_wrap block) w = (Ok tt, w1)
    ∧ ∀ tty,
        _logSessionLine logFile (Some tty) interval compact w
        = match tty with
          | HPath path | HStr path => append path (session_wrap block) w1
          | HOther =>
              (Raise (RuntimeError
                 (lit "argument `tty` must be either of type `Path` or `str`")),
               w1)
          end.
Proof.
  unfold _logSessionLine, bind, lift, get, getitem, ret, raise.
  destruct (symbols !! lit "launch") as [symbol|]; [|done].
  destruct (colors !! lit "launch") as [lc|]; [|done].
  destruct (colors !! lit "time") as [tc|]; [|done].
  destruct (_sessionTimeLine logFile interval w) as [[tl|e] w0] eqn:Hline;
    [|done].
  assert (w0 = w) as ->.
  { pose proof (_sessionTimeLine_reads_only logFile interval w) as Hw.
    by rewrite Hline in Hw. }
  destruct (append logFile _ w) as [[[]|e] w2] eqn:Happ; [|done].
  intros [= <-]. eexists. split; [exact Happ|].
  by intros [p|p|].
Qed.

(** X13: an announce to the primary destination alone that raises has written
    nothing: the store is the one it started from. *)
Theorem failed_announce_writes_nothing (w w' : world) (logFile : str)
    (interval : Z) (compact : bool) (e : exn) :
  _logSessionLine logFile None interval compact w = (Raise e, w') →
  w' = w.
Proof.
  unfold _logSessionLine, bind, lift, get, getitem, ret.
  destruct (symbols !! lit "launch") as [symbol|]; [|by intros [= _ <-]].
  destruct (colors !! lit "launch") as [lc|]; [|by intros [= _ <-]].
  destruct (colors !! lit "time") as [tc|]; [|by intros [= _ <-]].
  pose proof (_sessionTimeLine_reads_only logFile interval w) as Hw.
  destruct (_sessionTimeLine logFile interval w) as [[tl|e0] w0];
    cbn [snd] in Hw; subst w0; [|by intros [= _ <-]].
  destruct (append logFile _ w) as [[[]|e1] w2] eqn:Happ; [done|].
  apply append_Raise in Happ. by intros [= _ <-].
Qed.

(** X14: a second destination given as a [Path] or a [str] receives the block
    that the primary destination received; a file that is neither of the
    two is left as it was. *)
Theorem announce_writes_both (w w1 : world) (logFile p : str) (tty : handle)
    (interval : Z) (compact : bool) :
  tty = HPath p ∨ tty = HStr p →
  p ∉ denied w →
  _logSessionLine logFile None interval compact w = (Ok tt, w1) →
  ∃ block w2,
    _logSessionLine logFile (Some tty) interval compact w = (Ok tt, w2)
    ∧ content_of w1 logFile = content_of w logFile ++ block
    ∧ content_of w2 p = content_of w1 p ++ block
    ∧ (p ≠ logFile → content_of w2 logFile = content_of w1 logFile)
    ∧ ∀ q, q ≠ logFile → q ≠ p → files w2 !! q = files w !! q.
Proof.
  intros Htty Hp (block & Happ & Hsnd)%announce_decompose.
  pose proof (append_Ok _ _ _ _ Happ) as (_ & Hf1 & Hd1).
  destruct (append_writable p (session_wrap block) w1) as [w2 Happ2].
  { by rewrite Hd1. }
  pose proof (append_Ok _ _ _ _ Happ2) as (_ & Hf2 & _).
  exists (session_wrap block), w2. split.
  { rewrite Hsnd. by destruct Htty as [-> | ->]. }
  split; [by apply content_of_append|].
  split; [by apply content_of_append|].
  split.
  - intros Hne. unfold content_of. rewrite Hf2.
    by rewrite lookup_insert_ne.
  - intros q Hq1 Hq2. rewrite Hf2, Hf1.
    by rewrite !lookup_insert_ne.
Qed.


(** X16: without the primary destination the announce raises [OSError] before
    it writes anything, also to a second destination. *)
Theorem missing_primary_raises (w : world) (logFile : str)
    (tty : option handle) (interval : Z) (compact : bool)
    (symbol : str) (launchColor timeColor : color) :
  symbols !! lit "launch" = Some symbol →
  colors !! lit "launch" = Some launchColor →
  colors !! lit "time" = Some timeColor →
  files w !! logFile = None →
  _logSessionLine logFile tty interval compact w = (Raise (OSError logFile), w).
Proof.
  intros Hs Hl Ht Hf.
  unfold _logSessionLine, _sessionTimeLine, bind, lift, get, getitem, ret,
    getmtime.
  by rewrite Hs, Hl, Ht, Hf.
Qed.

(** X17: the command shown in the launch line is what follows the last slash
    of the whole command line: it holds no slash, and the command line is
    the command after nothing or after a text that ends with a slash. *)
Theorem command_after_last_slash (args : list str) :
  let line := join [SPACE] args in
  let cmd := basename line in
  existsb (N.eqb 47) cmd = false
  ∧ ∃ p, line = p ++ cmd ∧ (p = [] ∨ last p = Some 47%N).
Proof.
  cbv zeta. generalize (join [SPACE] args). intros s.
  induction s as [|c s (Hno & p & Hp & Hlast)].
  { split; [done|]. exists []. by split; [|left]. }
  cbn [basename]. destruct (existsb (N.eqb 47) s) eqn:Hs.
  - split; [done|]. exists (c :: p). split; [cbn; by f_equal|]. right.
    destruct Hlast as [->|Hlast]; [|by destruct p].
    cbn [app] in Hp. rewrite <- Hp in Hno. congruence.
  - destruct (N.eqb_spec c 47) as [->|Hc].
    + split; [done|]. exists [47%N]. by split; [|right].
    + split; [|exists []; by split; [|left]].
      cbn [existsb]. rewrite Hs.
      destruct (N.eqb_spec 47 c); [congruence|done].
Qed.

End announcer_more.

(** ** The properties on the sample configuration *)

Import Sample.

(** C1: the marker that [_timeLine] builds never reaches the text.  With
    the default interval and a record 3250 ms after the start, the method
    has the styled line in its local variable and returns [None]; the
    Regular text holds the formatted bound method in the slot of the time
    line and no elapsed duration, and it is the text rendered for a gap of
    0 ms as well. *)
Theorem regular_gap_marker_lost :
  let self := fresh false in
  let r := info "started" 3250 in
  (relativeCreated r - last_relativeCreated (_last self) >? _interval self)
  = true
  ∧ (∃ marker,
       (_timeLine_local (set_record r self).2).1 = Ok (Some marker)
       ∧ contains marker (lit "0:00:03.250000 elapsed") = true
       ∧ contains (rendered (format r self)) marker = false)
  ∧ (_timeLine (set_record r self).2).1 = Ok PyNone
  ∧ contains (rendered (format r self)) (lit "elapsed") = false
  ∧ contains (rendered (format r self))
      (lit "<bound method Formatter._timeLine of ") = true
  ∧ rendered (format (info "started" 0) self) = rendered (format r self).
Proof.
  cbv zeta. split; [vm_compute; reflexivity|]. split.
  - eexists. split; [vm_compute; reflexivity|].
    split; vm_compute; reflexivity.
  - split; [vm_compute; reflexivity|].
    split; [vm_compute; reflexivity|].
    split; vm_compute; reflexivity.
Qed.

(** C2 fails in the one-line variant of Compact mode: the same record
    rendered twice prints its header twice. *)
Lemma compact_one_line_reprints_header :
  let self := fresh true in
  let r := info "o:started" 0 in
  ∃ o1 s1 o2 s2 h,
    format r self = (Ok o1, s1) ∧ format r s1 = (Ok o2, s2)
    ∧ header r = Some h ∧ contains o2 h = true.
Proof.
  cbv zeta. do 5 eexists.
  split; [vm_compute; reflexivity|].
  split; [vm_compute; reflexivity|].
  split; vm_compute; reflexivity.
Qed.

Lemma same_site_second_render_witness :
  let self := fresh true in
  let r1 := info "started" 0 in
  let r2 := info "step two" 500 in
  ∃ c, colors !! lit "time" = Some c
       ∧ rendered (format r2 (format r1 self).2)
         = indent (glyph c ++ drop 2 (body r2)) (spaces margin).
Proof.
  cbv zeta.
  apply (same_site_second_render (info "started" 0) (info "step two" 500)
           (fresh true)
           (format (info "started" 0) (fresh true)).2
           (format (info "step two" 500)
              (format (info "started" 0) (fresh true)).2).2
           (rendered (format (info "started" 0) (fresh true)))
           (rendered (format (info "step two" 500)
                        (format (info "started" 0) (fresh true)).2))
           (default [] (header (info "started" 0))));
    vm_compute; reflexivity.
Defined.

(** C3 fails in Compact mode: a record 3250 ms after the last one, with an
    interval of 2000 ms, is rendered without the marker that the gap calls
    for. *)
Lemma compact_gap_marker_absent :
  let self := fresh true in
  let r := info "started" 3250 in
  (relativeCreated r - last_relativeCreated (_last self) >? _interval self)
  = true
  ∧ ∃ out s marker,
      format r self = (Ok out, s)
      ∧ (_timeLine_local (set_record r self).2).1 = Ok (Some marker)
      ∧ contains out marker = false
      ∧ contains out (lit "elapsed") = false.
Proof.
  cbv zeta. split; [vm_compute; reflexivity|]. do 3 eexists.
  split; [vm_compute; reflexivity|].
  split; [vm_compute; reflexivity|].
  split; vm_compute; reflexivity.
Qed.

Lemma gap_marker_layout_witness :
  let self := fresh true in
  let r := info "started" 3250 in
  (format (at_time r 0) (with_times self 5000 17)).1 = (format r self).1.
Proof.
  cbv zeta.
  pose proof (@gap_marker_layout externals (info "started" 3250) (fresh true)
                (default [] (@header externals (info "started" 3250)))
                ltac:(vm_compute; reflexivity)) as [Hcompact _].
  exact (Hcompact ltac:(reflexivity) 5000 17 0).
Defined.




Lemma unknown_severity_raises_witness :
  ∃ key, (format (trace "started" 0) (fresh true)).1 = Raise (KeyError key)
         ∧ _last (format (trace "started" 0) (fresh true)).2
           = _last (fresh true).
Proof.
  apply (unknown_severity_raises (trace "started" 0) (fresh true)).
  left. vm_compute. reflexivity.
Defined.

(** C7 fails: an announce whose second destination is a value of an
    unsupported type raises, and the primary destination has the session
    block appended all the same. *)
Lemma unsupported_tty_wrote_primary :
  let run := _logSessionLine log (Some HOther) 5 true (store 1) in
  run.1 = Raise (RuntimeError
                   (lit "argument `tty` must be either of type `Path` or `str`"))
  ∧ content_of (store 1) log = lit "earlier"
  ∧ content_of run.2 log ≠ content_of (store 1) log
  ∧ startswith (lit "earlier" ++ [ESC] ++ lit "[38;5;242m")
      (content_of run.2 log) = true.
Proof.
  cbv zeta. split; [vm_compute; reflexivity|].
  split; [vm_compute; reflexivity|].
  split; [|vm_compute; reflexivity].
  vm_compute. discriminate.
Qed.

Lemma unsupported_tty_raises_after_write_witness :
  let w' := (_logSessionLine log None 5 true (store 1)).2 in
  _logSessionLine log (Some HOther) 5 true (store 1)
  = (Raise (RuntimeError
              (lit "argument `tty` must be either of type `Path` or `str`")),
     w')
  ∧ ∃ block, content_of w' log = content_of (store 1) log ++ session_wrap block.
Proof.
  cbv zeta.
  apply (unsupported_tty_raises_after_write (store 1)
           (_logSessionLine log None 5 true (store 1)).2 log 5 true).
  vm_compute. reflexivity.
Defined.

Lemma render_commits_last_witness :
  let self := (format (info "started" 0) (fresh true)).2 in
  let r := info "step two" 500 in
  ∃ h, header r = Some h ∧ _last (format r self).2 = mk_Last h 500.
Proof.
  cbv zeta.
  apply (render_commits_last (info "step two" 500)
           (format (info "started" 0) (fresh true)).2
           (format (info "step two" 500)
              (format (info "started" 0) (fresh true)).2).2
           (rendered (format (info "step two" 500)
                        (format (info "started" 0) (fresh true)).2))).
  vm_compute. reflexivity.
Defined.

Lemma first_render_prints_header_witness :
  let r := info "started" 0 in
  ∃ h, header r = Some h
       ∧ h ≠ head (_last (__init__ 255 true 2000))
       ∧ rendered (format r (__init__ 255 true 2000))
         = indent (if true then
                     if one_line r
                     then h ++ [SPACE] ++ drop symbolWidth (body r)
                     else h ++ [LF] ++ body r
                   else [LF] ++ time_slot (__init__ 255 true 2000)
                          ++ [LF; LF] ++ h ++ [LF] ++ body r)
             (spaces margin).
Proof.
  cbv zeta.
  apply (first_render_prints_header 255 true 2000 (info "started" 0)
           (rendered (format (info "started" 0) (__init__ 255 true 2000)))
           (format (info "started" 0) (__init__ 255 true 2000)).2).
  vm_compute. reflexivity.
Defined.

Lemma regular_strips_prefix_witness :
  let self := fresh false in
  let r := info "o:started" 0 in
  _message (format r self).2 = Some (lit "started")
  ∧ _inOneLine (format r self).2 = Some true.
Proof.
  cbv zeta.
  pose proof (@regular_strips_prefix externals (info "o:started" 0)
                (fresh false)
                (default [] (@header externals (info "o:started" 0)))
                ltac:(vm_compute; reflexivity) ltac:(reflexivity)
                ltac:(vm_compute; reflexivity)) as (_ & Hm & Hf & _).
  split; [exact Hm | exact Hf].
Defined.

(** ** The further properties on the sample configuration *)

Lemma failed_render_leaves_no_trace_witness :
  (format (info "started" 0) (format (trace "lost" 0) (fresh true)).2).1
  = (format (info "started" 0) (fresh true)).1
  ∧ _last (format (info "started" 0) (format (trace "lost" 0) (fresh true)).2).2
    = _last (format (info "started" 0) (fresh true)).2.
Proof.
  assert ((format (trace "lost" 0) (fresh true)).1
          = Raise (KeyError (lit "trace"))) as Hraise
    by (vm_compute; reflexivity).
  exact (failed_render_leaves_no_trace _ (info "started" 0) _ _ Hraise).
Defined.

Lemma memory_is_one_record_witness :
  (format (info "step two" 500) (format (info "started" 0) (fresh true)).2).1
  = (format (info "step two" 500)
       (format (info "started" 0)
          (format (Cases.stop "bye" 0) (fresh true)).2).2).1.
Proof.
  assert (_id (fresh true)
          = _id (format (Cases.stop "bye" 0) (fresh true)).2) as Hid
    by (vm_compute; reflexivity).
  assert (_compact (fresh true)
          = _compact (format (Cases.stop "bye" 0) (fresh true)).2) as Hc
    by (vm_compute; reflexivity).
  assert (format (info "started" 0) (fresh true)
          = (Ok (rendered (format (info "started" 0) (fresh true))),
             (format (info "started" 0) (fresh true)).2)) as H1
    by (vm_compute; reflexivity).
  assert (format (info "started" 0)
            (format (Cases.stop "bye" 0) (fresh true)).2
          = (Ok (rendered (format (info "started" 0)
                             (format (Cases.stop "bye" 0) (fresh true)).2)),
             (format (info "started" 0)
                (format (Cases.stop "bye" 0) (fresh true)).2).2)) as H2
    by (vm_compute; reflexivity).
  exact (memory_is_one_record _ (info "step two" 500) _ _ _ _ _ _ Hid Hc H1 H2).
Defined.

Lemma site_change_prints_header_witness :
  ∃ out s2,
    format (info "started" 10) (format (Cases.stop "bye" 0) (fresh false)).2
    = (Ok out, s2).
Proof.
  assert (format (Cases.stop "bye" 0) (fresh false)
          = (Ok (rendered (format (Cases.stop "bye" 0) (fresh false))),
             (format (Cases.stop "bye" 0) (fresh false)).2)) as H1
    by (vm_compute; reflexivity).
  assert (header (Cases.stop "bye" 0)
          = Some (default [] (header (Cases.stop "bye" 0)))) as Hh1
    by (vm_compute; reflexivity).
  assert (header (info "started" 10)
          = Some (default [] (header (info "started" 10)))) as Hh2
    by (vm_compute; reflexivity).
  assert (default [] (header (Cases.stop "bye" 0))
          ≠ default [] (header (info "started" 10))) as Hne
    by (vm_compute; discriminate).
  do 2 eexists.
  exact (site_change_prints_header _ _ _ _ _ _ _ H1 Hh1 Hh2 Hne).
Defined.

Lemma continuation_needs_time_colour_witness :
  ∃ s, @format Cases.bare (info "step two" 500)
         (@format Cases.bare (info "started" 0) (fresh true)).2
       = (Raise (KeyError (lit "time")), s)
       ∧ _last s = _last (@format Cases.bare (info "started" 0) (fresh true)).2
       ∧ @format Cases.bare (info "step two" 500) s
         = (Raise (KeyError (lit "time")), s).
Proof.
  assert (@header Cases.bare (info "step two" 500)
          = Some (default [] (@header Cases.bare (info "step two" 500))))
    as Hh by (vm_compute; reflexivity).
  assert (_compact (@format Cases.bare (info "started" 0) (fresh true)).2
          = true) as Hc by (vm_compute; reflexivity).
  assert (one_line (info "step two" 500) = false) as Hone
    by (vm_compute; reflexivity).
  assert (default [] (@header Cases.bare (info "step two" 500))
          = head (_last (@format Cases.bare (info "started" 0)
                           (fresh true)).2)) as Hs
    by (vm_compute; reflexivity).
  assert (@colors Cases.bare !! lit "time" = None) as Ht
    by (vm_compute; reflexivity).
  eexists.
  exact (@continuation_needs_time_colour Cases.bare _ _ _ Hh Hc Hone Hs Ht).
Defined.

Lemma rendered_lines_margined_witness :
  Forall (λ l, margined (spaces margin) l = true)
    (splitlines (rendered (format (info "o:first
second" 0) (fresh false))))
  ∧ (_compact (fresh false) = false →
     ∃ rest, rendered (format (info "o:first
second" 0) (fresh false)) = LF :: rest).
Proof.
  assert (format (info "o:first
second" 0) (fresh false)
          = (Ok (rendered (format (info "o:first
second" 0) (fresh false))),
             (format (info "o:first
second" 0) (fresh false)).2)) as H
    by (vm_compute; reflexivity).
  exact (rendered_lines_margined _ _ _ _ H).
Defined.

Lemma continuation_keeps_message_witness :
  ∃ s, format (info "step two" 500) (format (info "started" 0) (fresh true)).2
       = (Ok (indent (glyph (lit "38;5;238" : @color externals)
                        ++ spaces (symbolWidth - 2)
                        ++ text (info "step two" 500))
                (spaces margin)), s).
Proof.
  assert (header (info "step two" 500)
          = Some (default [] (header (info "step two" 500)))) as Hh
    by (vm_compute; reflexivity).
  assert (_compact (format (info "started" 0) (fresh true)).2 = true) as Hc
    by (vm_compute; reflexivity).
  assert (one_line (info "step two" 500) = false) as Hone
    by (vm_compute; reflexivity).
  assert (default [] (header (info "step two" 500))
          = head (_last (format (info "started" 0) (fresh true)).2)) as Hs
    by (vm_compute; reflexivity).
  assert (colors !! lit "time" = Some (lit "38;5;238" : @color externals))
    as Ht by (vm_compute; reflexivity).
  assert (2 ≤ symbolWidth)%nat as Hw by (vm_compute; lia).
  assert (no_break (text (info "step two" 500)) = true) as Hnb
    by (vm_compute; reflexivity).
  assert (text (info "step two" 500) ≠ []) as Hne
    by (vm_compute; discriminate).
  eexists.
  exact (continuation_keeps_message _ _ _ _ Hh Hc Hone Hs Ht Hw Hnb Hne).
Defined.

Lemma prefix_after_white_space_witness :
  one_line (info "  o: two words  " 0) = true
  ∧ text (info "  o: two words  " 0) = rstrip (lit " two words  ").
Proof.
  assert (blank (lit "  ") = true) as Hws by (vm_compute; reflexivity).
  assert (message (info "  o: two words  " 0)
          = lit "  " ++ lit "o:" ++ lit " two words  ") as Hm
    by (vm_compute; reflexivity).
  exact (prefix_after_white_space _ _ _ Hws Hm).
Defined.

Lemma main_alias_is_one_site_witness :
  header (info "started" 0) = header (Cases.main_info "step two" 500)
  ∧ (_compact (fresh false) = false →
     (format (Cases.main_info "step two" 500)
        (format (info "started" 0) (fresh false)).2).1
     = Ok (indent ([LF] ++ time_slot (fresh false) ++ [LF; LF]
                     ++ body (Cases.main_info "step two" 500))
             (spaces margin))).
Proof.
  assert (format (info "started" 0) (fresh false)
          = (Ok (rendered (format (info "started" 0) (fresh false))),
             (format (info "started" 0) (fresh false)).2)) as H1
    by (vm_compute; reflexivity).
  assert (name (info "started" 0) = lit "__main__") as Hn1
    by (vm_compute; reflexivity).
  assert (name (Cases.main_info "step two" 500) = lit "main") as Hn2
    by (vm_compute; reflexivity).
  exact (main_alias_is_one_site _ _ _ _ _ H1 Hn1 Hn2 eq_refl eq_refl eq_refl).
Defined.

Lemma failed_announce_writes_nothing_witness :
  (_logSessionLine Cases.nowhere None 5 true (store 1)).2 = store 1.
Proof.
  assert (_logSessionLine Cases.nowhere None 5 true (store 1)
          = (Raise (OSError Cases.nowhere),
             (_logSessionLine Cases.nowhere None 5 true (store 1)).2)) as H
    by (vm_compute; reflexivity).
  exact (failed_announce_writes_nothing _ _ _ _ _ _ H).
Defined.

Lemma announce_writes_both_witness :
  ∃ block w2,
    _logSessionLine log (Some (HStr Cases.tty)) 5 true (store 1) = (Ok tt, w2)
    ∧ content_of (_logSessionLine log None 5 true (store 1)).2 log
      = content_of (store 1) log ++ block
    ∧ content_of w2 Cases.tty
      = content_of (_logSessionLine log None 5 true (store 1)).2 Cases.tty
          ++ block
    ∧ (Cases.tty ≠ log →
       content_of w2 log
       = content_of (_logSessionLine log None 5 true (store 1)).2 log)
    ∧ ∀ q, q ≠ log → q ≠ Cases.tty → files w2 !! q = files (store 1) !! q.
Proof.
  assert (Cases.tty ∉ denied (store 1)) as Hp by set_solver.
  assert (_logSessionLine log None 5 true (store 1)
          = (Ok tt, (_logSessionLine log None 5 true (store 1)).2)) as H
    by (vm_compute; reflexivity).
  exact (announce_writes_both _ _ _ _ (HStr Cases.tty) _ _
           (or_intror eq_refl) Hp H).
Defined.


Lemma missing_primary_raises_witness :
  _logSessionLine Cases.nowhere (Some (HStr Cases.tty)) 5 true (store 1)
  = (Raise (OSError Cases.nowhere), store 1).
Proof.
  assert (symbols !! lit "launch" = Some (lit "L")) as Hs
    by (vm_compute; reflexivity).
  assert (colors !! lit "launch" = Some (lit "38;5;242" : @color externals))
    as Hl by (vm_compute; reflexivity).
  assert (colors !! lit "time" = Some (lit "38;5;238" : @color externals))
    as Ht by (vm_compute; reflexivity).
  assert (files (store 1) !! Cases.nowhere = None) as Hf
    by (vm_compute; reflexivity).
  exact (missing_primary_raises _ _ _ _ _ _ _ _ Hs Hl Ht Hf).
Defined.
